(** * text2ipa: English text to IPA, with an ARPAbet fallback

    A shallow embedding of [text2ipa.py] and the properties of its symbol
    translator, of its word-by-word fallback, of the phrase converter and
    of the command line entry point.

    Python strings are sequences of Unicode code points: a character is a
    code point ([N]) and a string a list of them.  The two collaborators
    ([eng_to_ipa] and [pronouncing]) are module globals that are [None]
    when their import failed; their calls may raise.  Calls to them and
    lines written to the two output streams are recorded in a trace, so
    that "is never invoked" is a statement about the trace. *)

From Stdlib Require Import NArith List Bool String Ascii Lia.
From stdpp Require Import base option list gmap.
Import ListNotations.
Local Open Scope N_scope.

(** ** Python strings *)

Definition char := N.
Definition str := list char.

(** Source text of this file is UTF-8: a literal is decoded to the code
    points it denotes, so that the table below reads as in the source. *)
Fixpoint utf8_decode (bs : list N) : str :=
  match bs with
  | [] => []
  | b :: r =>
    if b <? 128 then b :: utf8_decode r
    else if b <? 224 then
      match r with
      | b1 :: r1 => ((b - 192) * 64 + (b1 - 128)) :: utf8_decode r1
      | [] => []
      end
    else if b <? 240 then
      match r with
      | b1 :: b2 :: r2 =>
        ((b - 224) * 4096 + (b1 - 128) * 64 + (b2 - 128)) :: utf8_decode r2
      | _ => []
      end
    else
      match r with
      | b1 :: b2 :: b3 :: r3 =>
        ((b - 240) * 262144 + (b1 - 128) * 4096 + (b2 - 128) * 64 + (b3 - 128))
          :: utf8_decode r3
      | _ => []
      end
  end.

Definition py (s : string) : str :=
  utf8_decode (List.map N_of_ascii (list_ascii_of_string s)).

(** [str.isspace] on one character: the whitespace of CPython's Unicode
    database. *)
Definition isspace (c : char) : bool :=
  ((9 <=? c) && (c <=? 13)) || ((28 <=? c) && (c <=? 32))
  || (c =? 133) || (c =? 160) || (c =? 5760)
  || ((8192 <=? c) && (c <=? 8202))
  || (c =? 8232) || (c =? 8233) || (c =? 8239) || (c =? 8287) || (c =? 12288).

Fixpoint lstrip (s : str) : str :=
  match s with
  | c :: s' => if isspace c then lstrip s' else s
  | [] => []
  end.

Definition rstrip (s : str) : str := rev (lstrip (rev s)).

(** [s.strip()] *)
Definition strip (s : str) : str := rstrip (lstrip s).

(** [s.split()] with no argument: the maximal runs of non-whitespace.
    [cur] is the run being read, most recent character first. *)
Fixpoint split_from (cur : str) (s : str) : list str :=
  match s with
  | [] => match cur with [] => [] | _ => [rev cur] end
  | c :: s' =>
    if isspace c then
      match cur with
      | [] => split_from [] s'
      | _ => rev cur :: split_from [] s'
      end
    else split_from (c :: cur) s'
  end.

Definition split (s : str) : list str := split_from [] s.

(** [sep.join(l)] *)
Fixpoint join (sep : str) (l : list str) : str :=
  match l with
  | [] => []
  | [x] => x
  | x :: l' => x ++ sep ++ join sep l'
  end.

(** [s.replace(old, new)] for a pattern [old] of one character. *)
Definition replace (old : char) (new : str) (s : str) : str :=
  flat_map (fun c => if c =? old then new else [c]) s.

(** Truth value of a string or of a list: non-empty. *)
Definition truthy {A} (l : list A) : bool :=
  match l with [] => false | _ => true end.

(** ** Exceptions, traces and the effect monad *)

(** The exceptions ([Exception] and its subclasses) that the program
    raises or may receive from a collaborator or from the file system. *)
Inductive exn :=
| RuntimeError (msg : str)
| FileNotFoundError (msg : str)
| OtherException (msg : str).

Inductive result (A : Type) :=
| Ok (a : A)
| Raise (e : exn).
Arguments Ok {A} a.
Arguments Raise {A} e.

(** What is written to the error stream; the payload is kept, the
    formatting of the line is not modelled. *)
Inductive diagnostic :=
| DebugPhones (w : str) (phones : list str)
| DebugPrimaryFailed (e : exn)
| HelpText
| WarnNoLines
| ErrFileNotFound (path : option str)
| ErrException (e : exn).

Inductive event :=
| CallConvert (text : str)
| CallPhones (word : str)
| OpenFile (path : option str)
| Stdout (line : str)
| Stderr (d : diagnostic).

(** A computation yields the events it performed, in order, and either a
    value or the exception that ended it. *)
Definition M (A : Type) : Type := list event * result A.

Definition ret {A} (a : A) : M A := ([], Ok a).

Definition bind {A B} (m : M A) (f : A -> M B) : M B :=
  match m with
  | (t, Ok a) => let (t', r) := f a in (t ++ t', r)
  | (t, Raise e) => (t, Raise e)
  end.

Definition raise {A} (e : exn) : M A := ([], Raise e).

Definition emit (ev : event) : M unit := ([ev], Ok tt).

(** [try: m except Exception as e: h e] *)
Definition try_except {A} (m : M A) (h : exn -> M A) : M A :=
  match m with
  | (t, Ok a) => (t, Ok a)
  | (t, Raise e) => let (t', r) := h e in (t ++ t', r)
  end.

(** A call to a collaborator: the call is recorded, then it returns or
    raises. *)
Definition call {A} (ev : event) (r : result A) : M A := ([ev], r).

(** [if b: m] *)
Definition when (b : bool) (m : M unit) : M unit := if b then m else ret tt.

Declare Scope py_scope.
Delimit Scope py_scope with py.
Notation "'let*' x := m 'in' k" := (bind m (fun x => k))
  (at level 10, x name, m at level 100, k at level 200) : py_scope.
Local Open Scope py_scope.

Definition trace {A} (m : M A) : list event := fst m.
Definition outcome {A} (m : M A) : result A := snd m.

Definition raises {A} (m : M A) : Prop := exists e, outcome m = Raise e.
Definition returns {A} (m : M A) (a : A) : Prop := outcome m = Ok a.

(** ** Sample collaborators and runtime, for concrete runs *)

(** A runtime whose tables hold nothing outside ASCII. *)
Definition ascii_isdigit : char -> bool := fun _ => false.
Definition ascii_lower_only : str -> str := fun s => s.

(** A dictionary with the single entry "cat". *)
Definition cat_dictionary : str -> result (list str) :=
  fun w => Ok (if decide (w = py "cat") then [py "K AE1 T"] else []).

(** A primary converter that answers every text with one space. *)
Definition blank_converter : str -> result str := fun _ => Ok (py " ").

(** A primary converter that answers every text with " kæt ". *)
Definition padded_converter : str -> result str := fun _ => Ok (py " kæt ").

(** A file system with the one file "phrases.txt", of three lines, the
    second one blank. *)
Definition phrases_file : str -> result (list str * option exn) :=
  fun path =>
    if decide (path = py "phrases.txt")
    then Ok ([py "cat"; py "  "; py " Cat nap "], None)
    else Raise (FileNotFoundError path).

(** A file system where every path is a file of two blank lines. *)
Definition blank_files : str -> result (list str * option exn) :=
  fun _ => Ok ([py "   "; []], None).

(** The vowel keys of the table, and the stress digits a vowel symbol
    may carry. *)
Definition ARPABET_VOWELS : list str :=
  [ py "AA"; py "AE"; py "AH"; py "AO"; py "AW"; py "AY";
    py "EH"; py "ER"; py "EY"; py "IH"; py "IY";
    py "OW"; py "OY"; py "UH"; py "UW" ].

Definition stress_digits : list char := py "012".

(** A phrase is blank when it is empty or has only whitespace. *)
Definition blank (s : str) : bool := forallb isspace s.

(** A token: a non-empty string without whitespace. *)
Definition token (s : str) : bool :=
  truthy s && forallb (fun c => negb (isspace c)) s.

(** A trace without what was written to the error stream. *)
Definition quiet (t : list event) : list event :=
  List.filter (fun ev => match ev with Stderr _ => false | _ => true end) t.

(** A computation with its diagnostics removed from the trace. *)
Definition hush {A} (m : M A) : M A := (quiet (trace m), outcome m).

(** What was printed to the standard output, one string for each call of
    [print] that succeeded, in order. *)
Definition printed (t : list event) : list str :=
  flat_map (fun ev => match ev with Stdout line => [line] | _ => [] end) t.

(** The events of a conversion: calls to the two collaborators and debug
    diagnostics; no file is opened, nothing goes to the standard output
    and no error line is written. *)
Definition conversion_event (ev : event) : bool :=
  match ev with
  | CallConvert _ | CallPhones _ => true
  | Stderr (DebugPhones _ _) | Stderr (DebugPrimaryFailed _) => true
  | _ => false
  end.

(** The error lines of a trace: the lines that start with [[error]]. *)
Definition error_line_event (ev : event) : bool :=
  match ev with
  | Stderr (ErrFileNotFound _) | Stderr (ErrException _) => true
  | _ => false
  end.

Definition error_lines (t : list event) : list event :=
  List.filter error_line_event t.

(** Python values, for the operations whose outcome depends on the type
    of their argument. *)
Inductive value :=
| VNone
| VInt (n : Z)
| VStr (s : str)
| VList (l : list str).

(** A standard output that takes every string, and one with strict UTF-8
    encoding, which refuses the lone surrogates that stand for
    undecodable bytes of the command line. *)
Definition stdout_ok : str -> result unit := fun _ => Ok tt.

Definition stdout_strict : str -> result unit :=
  fun s =>
    if existsb (fun c => (55296 <=? c) && (c <=? 57343)) s
    then Raise (OtherException (py "'utf-8' codec can't encode character: surrogates not allowed"))
    else Ok tt.

(** ** The program *)

Section Program.

(** The Unicode tables of the Python runtime outside ASCII: which
    characters are digits for [str.isdigit], and [str.lower] on a string
    that has a non-ASCII character. *)
Variable uni_isdigit : char -> bool.
Variable uni_lower : str -> str.

Definition isdigit (c : char) : bool :=
  if c <? 128 then (48 <=? c) && (c <=? 57) else uni_isdigit c.

Definition ascii_lower (c : char) : char :=
  if (65 <=? c) && (c <=? 90) then c + 32 else c.

(** [s.lower()] *)
Definition lower (s : str) : str :=
  if forallb (fun c => c <? 128) s then List.map ascii_lower s else uni_lower s.

Definition ARPABET_TO_IPA : gmap str str :=
  list_to_map
  [ (* Consonants *)
    (py "P", py "p"); (py "B", py "b"); (py "T", py "t"); (py "D", py "d");
    (py "K", py "k"); (py "G", py "ɡ");
    (py "CH", py "t͡ʃ"); (py "JH", py "d͡ʒ");
    (py "F", py "f"); (py "V", py "v"); (py "TH", py "θ"); (py "DH", py "ð");
    (py "S", py "s"); (py "Z", py "z"); (py "SH", py "ʃ"); (py "ZH", py "ʒ");
    (py "HH", py "h"); (py "M", py "m"); (py "N", py "n"); (py "NG", py "ŋ");
    (py "L", py "l"); (py "R", py "ɹ"); (py "Y", py "j"); (py "W", py "w");
    (* Vowels (stress digits stripped) *)
    (py "AA", py "ɑ"); (py "AE", py "æ"); (py "AH", py "ʌ"); (py "AO", py "ɔ");
    (py "AW", py "aʊ"); (py "AY", py "aɪ");
    (py "EH", py "ɛ"); (py "ER", py "ɝ"); (py "EY", py "eɪ");
    (py "IH", py "ɪ"); (py "IY", py "i");
    (py "OW", py "oʊ"); (py "OY", py "ɔɪ");
    (py "UH", py "ʊ"); (py "UW", py "u") ].

(** ["".join([c for c in sym if not c.isdigit()])] *)
Definition strip_digits (sym : str) : str :=
  List.filter (fun c => negb (isdigit c)) sym.

Definition _arpabet_symbol_to_ipa (sym : str) : str :=
  (* Strip stress digits from vowels (e.g., AE1 -> AE) *)
  let base := strip_digits sym in
  default (lower base) (ARPABET_TO_IPA !! base).

Definition arpabet_list_to_ipa (arpa : list str) : str :=
  join (py " ") (List.map _arpabet_symbol_to_ipa arpa).

(** The translator as the interpreter runs it, on a value of any type:
    each operation returns or raises as Python's does for the type it
    meets. *)

(** [for c in v]: the elements that [v] yields. *)
Definition iterate (v : value) : M (list value) :=
  match v with
  | VStr s => ret (List.map (fun c => VStr [c]) s)
  | VList l => ret (List.map VStr l)
  | VNone => raise (OtherException (py "TypeError: 'NoneType' object is not iterable"))
  | VInt _ => raise (OtherException (py "TypeError: 'int' object is not iterable"))
  end.

(** [v.isdigit()]: on a string, all characters are digits and there is
    at least one. *)
Definition call_isdigit (v : value) : M bool :=
  match v with
  | VStr s => ret (truthy s && forallb isdigit s)
  | _ => raise (OtherException (py "AttributeError: object has no attribute 'isdigit'"))
  end.

(** [[c for c in cs if not c.isdigit()]] *)
Fixpoint keep_non_digits (cs : list value) : M (list value) :=
  match cs with
  | [] => ret []
  | c :: rest =>
    let* digit := call_isdigit c in
    let* kept := keep_non_digits rest in
    ret (if digit then kept else c :: kept)
  end.

(** ["".join(l)] *)
Fixpoint join_values (l : list value) : M str :=
  match l with
  | [] => ret []
  | VStr s :: rest =>
    let* tail := join_values rest in
    ret (s ++ tail)
  | _ :: _ => raise (OtherException (py "TypeError: sequence item: expected str instance"))
  end.

(** [v.lower()] *)
Definition call_lower (v : value) : M value :=
  match v with
  | VStr s => ret (VStr (lower s))
  | _ => raise (OtherException (py "AttributeError: object has no attribute 'lower'"))
  end.

(** [ARPABET_TO_IPA.get(key, default)]: the key is hashed, which a list
    refuses; a key that is not a string is not in the table. *)
Definition table_get (key default : value) : M value :=
  match key with
  | VStr k =>
    ret (match ARPABET_TO_IPA !! k with Some v => VStr v | None => default end)
  | VList _ => raise (OtherException (py "TypeError: unhashable type: 'list'"))
  | _ => ret default
  end.

Definition run_arpabet_symbol_to_ipa (sym : value) : M value :=
  let* cs := iterate sym in
  let* kept := keep_non_digits cs in
  let* base := join_values kept in
  let* low := call_lower (VStr base) in
  table_get (VStr base) low.

(** The module globals [ipa] and [pronouncing]: [None] when the import
    failed, otherwise the one function of the module that is used. *)
Variable ipa : option (str -> result str).
Variable pronouncing : option (str -> result (list str)).

(** The loop of [words_to_ipa_with_pronouncing]; [out_words] is the list
    the loop appends to. *)
Fixpoint words_loop (phones_for_word : str -> result (list str))
    (debug : bool) (words : list str) (out_words : list str) : M (list str) :=
  match words with
  | [] => ret out_words
  | w :: rest =>
    let* phones := call (CallPhones (lower w)) (phones_for_word (lower w)) in
    let* _ := when debug (emit (Stderr (DebugPhones w phones))) in
    match phones with
    | first :: _ =>
      let arpa := split first in
      words_loop phones_for_word debug rest (out_words ++ [arpabet_list_to_ipa arpa])
    | [] =>
      (* Fallback: keep the original word if unknown *)
      words_loop phones_for_word debug rest (out_words ++ [w])
    end
  end.

Definition words_to_ipa_with_pronouncing (words : list str) (debug : bool) : M str :=
  match pronouncing with
  | None =>
    raise (RuntimeError (py "Module 'pronouncing' not available and eng_to_ipa failed."))
  | Some phones_for_word =>
    let* out_words := words_loop phones_for_word debug words [] in
    ret (join (py " ") out_words)
  end.

(** The first half of [text_to_ipa]: [Some res] when the primary
    converter gave a usable result, [None] when the fallback is due. *)
Definition try_eng_to_ipa (text : str) (debug : bool) : M (option str) :=
  match ipa with
  | Some convert =>
    try_except
      (let* res := call (CallConvert text) (convert text) in
       if truthy res && truthy (strip res) then ret (Some (strip res))
       else ret None)
      (fun e =>
         let* _ := when debug (emit (Stderr (DebugPrimaryFailed e))) in
         ret None)
  | None => ret None
  end.

Definition text_to_ipa (text : str) (sep : str) (debug : bool) : M str :=
  let text := strip text in
  if negb (truthy text) then ret []
  else
    let* primary := try_eng_to_ipa text debug in
    match primary with
    | Some res => ret res
    | None =>
      (* Fallback to pronouncing (word-by-word ARPAbet -> IPA) *)
      let words := List.filter truthy (split (replace 10 (py " ") text)) in
      let* ipa_fallback := words_to_ipa_with_pronouncing words debug in
      (* Normalize spaces to chosen separator *)
      ret (join sep (split ipa_fallback))
    end.

(** The parsed command line: [text] and [file] are [None] when the
    option was not given. *)
Record Namespace := {
  args_text : option str;
  args_file : option str;
  args_sep : str;
  args_debug : bool
}.

(** The command line [--text TEXT --sep SEP], and [--file PATH --sep SEP]. *)
Definition text_args (text sep : str) : Namespace :=
  {| args_text := Some text; args_file := None; args_sep := sep; args_debug := false |}.
Definition file_args (path sep : str) : Namespace :=
  {| args_text := None; args_file := Some path; args_sep := sep; args_debug := false |}.

(** [not args.text]: the option was not given, or given as the empty
    string. *)
Definition falsy (o : option str) : bool :=
  match o with
  | Some s => negb (truthy s)
  | None => true
  end.

(** The file system: opening a path raises, or gives the lines that
    iterating over the file yields and the error, if any, that ends the
    iteration early. *)
Variable open_file : str -> result (list str * option exn).

(** The standard output: writing a string with its line end returns, or
    raises (a character that the encoding of the stream refuses, a closed
    pipe).  The error stream escapes what it cannot encode. *)
Variable write_stdout : str -> result unit.

(** [print(s)] *)
Definition print (s : str) : M unit :=
  match write_stdout s with
  | Ok _ => emit (Stdout s)
  | Raise e => raise e
  end.

(** The error line that [main] writes for an exception that leaves the
    [try] block. *)
Definition error_line (args : Namespace) (e : exn) : diagnostic :=
  match e with
  | FileNotFoundError _ => ErrFileNotFound (args_file args)
  | _ => ErrException e
  end.

Fixpoint file_loop (sep : str) (debug : bool) (lines : list str) (count : N) : M N :=
  match lines with
  | [] => ret count
  | line :: rest =>
    let phrase := strip line in
    if negb (truthy phrase) then file_loop sep debug rest count
    else
      let* out := text_to_ipa phrase sep debug in
      let* _ := print out in
      file_loop sep debug rest (count + 1)
  end.

(** The [try] block of [main]. *)
Definition main_body (args : Namespace) : M unit :=
  if negb (falsy (args_text args)) then
    let* out := text_to_ipa (default [] (args_text args)) (args_sep args) (args_debug args) in
    print out
  else
    (* File mode *)
    let* fh := call (OpenFile (args_file args))
                 match args_file args with
                 | Some path => open_file path
                 | None => Raise (OtherException (py "expected str, bytes or os.PathLike object, not NoneType"))
                 end in
    let* count := file_loop (args_sep args) (args_debug args) (fst fh) 0 in
    let* _ := match snd fh with Some e => raise e | None => ret tt end in
    when (count =? 0) (emit (Stderr WarnNoLines)).

(** [main]: what it writes and calls, and the exit status of the
    process. *)
Definition main (args : Namespace) : list event * N :=
  if falsy (args_text args) && falsy (args_file args) then
    ([Stderr HelpText], 2)
  else
    match main_body args with
    | (t, Ok _) => (t, 0)
    | (t, Raise (FileNotFoundError _)) =>
      (t ++ [Stderr (ErrFileNotFound (args_file args))], 1)
    | (t, Raise e) => (t ++ [Stderr (ErrException e)], 1)
    end.

(** What the fallback owes for one word [w], as the part [o] of its
    output: the word itself when the dictionary has no candidate for the
    lowercased word, and otherwise the first candidate, split into
    symbols, each translated, joined with single spaces. *)
Definition renders (phones_for_word : str -> result (list str)) (w o : str) : Prop :=
  forall phones, phones_for_word (lower w) = Ok phones ->
    match phones with
    | [] => o = w
    | first :: _ => o = join (py " ") (List.map _arpabet_symbol_to_ipa (split first))
    end.

(** The dictionary answers, without raising, for every word of the list. *)
Definition answers (phones_for_word : str -> result (list str)) (words : list str) : Prop :=
  forall w, In w words -> exists phones, phones_for_word (lower w) = Ok phones.

(** ** Properties of the string operations and of the monad *)

Lemma lstrip_blank (s : str) : blank s = true -> lstrip s = [].
Proof.
  induction s as [|c s IH]; simpl; [reflexivity|].
  intros H. apply andb_prop in H as [Hc Hs].
  rewrite Hc. exact (IH Hs).
Qed.

Lemma strip_blank (s : str) : blank s = true -> strip s = [].
Proof.
  intros H. unfold strip. rewrite (lstrip_blank s H). reflexivity.
Qed.

Lemma truthy_strip (s : str) : truthy (strip s) = true -> truthy s = true.
Proof. destruct s; [discriminate | reflexivity]. Qed.

Lemma truthy_true {A} (l : list A) : l <> [] -> truthy l = true.
Proof. destruct l; [congruence | reflexivity]. Qed.

Lemma filter_all {A} (p : A -> bool) (l : list A) :
  forallb p l = true -> List.filter p l = l.
Proof.
  induction l as [|a l IH]; simpl; [reflexivity|].
  intros H. apply andb_prop in H as [Ha Hl].
  rewrite Ha, (IH Hl). reflexivity.
Qed.

Lemma outcome_bind_ok {A B} (t : list event) (a : A) (f : A -> M B) :
  outcome (bind (t, Ok a) f) = outcome (f a).
Proof. unfold bind. destruct (f a). reflexivity. Qed.

Lemma raises_not_returns {A} (m : M A) : raises m -> forall a, ~ returns m a.
Proof. intros [e He] a Ha. unfold returns in Ha. congruence. Qed.

(** ** The symbol translator *)

Lemma stress_digit_isdigit (d : char) : In d stress_digits -> isdigit d = true.
Proof.
  intros H. cbv in H.
  destruct H as [<- | [<- | [<- | []]]]; reflexivity.
Qed.

Lemma strip_digits_snoc (sym : str) (d : char) :
  isdigit d = true -> strip_digits (sym ++ [d]) = strip_digits sym.
Proof.
  intros H. unfold strip_digits.
  rewrite List.filter_app. simpl. rewrite H. simpl. apply app_nil_r.
Qed.

Lemma strip_digits_no_digit (sym : str) :
  forallb (fun c => negb (isdigit c)) sym = true -> strip_digits sym = sym.
Proof. apply filter_all. Qed.

Lemma vowel_in_table (v : str) :
  In v ARPABET_VOWELS -> ARPABET_TO_IPA !! v = Some (_arpabet_symbol_to_ipa v).
Proof.
  intros H. cbv [ARPABET_VOWELS In] in H.
  repeat (destruct H as [<- | H]; [vm_compute; reflexivity|]).
  destruct H.
Qed.

(** C3: a vowel symbol that carries a stress digit 0, 1 or 2 is translated
    to the same IPA string as the vowel symbol without the digit, and that
    string is the table's entry for the vowel. *)
Theorem stress_digit_ignored (v : str) (d : char) :
  In v ARPABET_VOWELS -> In d stress_digits ->
  _arpabet_symbol_to_ipa (v ++ [d]) = _arpabet_symbol_to_ipa v
  /\ ARPABET_TO_IPA !! v = Some (_arpabet_symbol_to_ipa (v ++ [d])).
Proof.
  intros Hv Hd.
  assert (E : _arpabet_symbol_to_ipa (v ++ [d]) = _arpabet_symbol_to_ipa v).
  { unfold _arpabet_symbol_to_ipa.
    rewrite (strip_digits_snoc v d (stress_digit_isdigit d Hd)). reflexivity. }
  split; [exact E|]. rewrite E. apply vowel_in_table, Hv.
Qed.

(** C4, as amended: when the digit-free base form of a symbol is not a key
    of the table, the translator returns the lowercased base form; for a
    symbol without digit characters that is the lowercased symbol itself. *)
Theorem unknown_symbol_passthrough (sym : str) :
  ARPABET_TO_IPA !! strip_digits sym = None ->
  _arpabet_symbol_to_ipa sym = lower (strip_digits sym)
  /\ (forallb (fun c => negb (isdigit c)) sym = true ->
      _arpabet_symbol_to_ipa sym = lower sym).
Proof.
  intros H. unfold _arpabet_symbol_to_ipa. rewrite H. simpl.
  split; [reflexivity|].
  intros Hnd. rewrite (strip_digits_no_digit sym Hnd). reflexivity.
Qed.

(** ** The word-by-word fallback *)

Lemma words_loop_returns (d : str -> result (list str)) (debug : bool) (words : list str) :
  answers d words ->
  forall acc, exists out_words,
    outcome (words_loop d debug words acc) = Ok (acc ++ out_words)
    /\ Forall2 (renders d) words out_words.
Proof.
  induction words as [|w rest IH]; intros H acc.
  - exists []. rewrite app_nil_r. split; [reflexivity | constructor].
  - destruct (H w (or_introl eq_refl)) as [phones Hw].
    assert (Hrest : answers d rest) by (intros x Hx; apply H; right; exact Hx).
    cbn [words_loop]. unfold call. rewrite Hw, outcome_bind_ok.
    assert (Hdbg : forall k : unit -> M (list str),
               outcome (bind (when debug (emit (Stderr (DebugPhones w phones)))) k)
               = outcome (k tt)).
    { intros k. destruct debug; apply outcome_bind_ok. }
    rewrite Hdbg.
    destruct phones as [|first others].
    + destruct (IH Hrest (acc ++ [w])) as [outs [E F]].
      exists (w :: outs). rewrite E, <- app_assoc. split; [reflexivity|].
      constructor; [|exact F].
      intros phones Hp. rewrite Hw in Hp. injection Hp as <-. reflexivity.
    + destruct (IH Hrest (acc ++ [arpabet_list_to_ipa (split first)])) as [outs [E F]].
      exists (arpabet_list_to_ipa (split first) :: outs).
      rewrite E, <- app_assoc. split; [reflexivity|].
      constructor; [|exact F].
      intros phones Hp. rewrite Hw in Hp. injection Hp as <-. reflexivity.
Qed.

Lemma fallback_returns (d : str -> result (list str)) (words : list str) (debug : bool) :
  pronouncing = Some d -> answers d words ->
  exists out_words,
    returns (words_to_ipa_with_pronouncing words debug) (join (py " ") out_words)
    /\ Forall2 (renders d) words out_words.
Proof.
  intros Hp H. unfold words_to_ipa_with_pronouncing, returns. rewrite Hp.
  destruct (words_loop_returns d debug words H []) as [outs [E F]].
  exists outs. split; [|exact F].
  destruct (words_loop d debug words []) as [t r]. simpl in E. subst r.
  reflexivity.
Qed.

(** C5: with a dictionary that answers for every word, the fallback
    returns the per-word parts joined with single spaces.  The part of a
    word without candidate is the word itself, case preserved.  The part
    of a word with candidates is made from the first candidate: it is
    split on whitespace into symbols, each symbol is translated (to the
    table's entry for the symbol without its digits, or to that digit-free
    form lowercased when the table has none), and the translations are
    joined with single spaces. *)
Theorem fallback_per_word (d : str -> result (list str)) (words : list str) (debug : bool) :
  pronouncing = Some d -> answers d words ->
  exists out_words,
    returns (words_to_ipa_with_pronouncing words debug) (join (py " ") out_words)
    /\ Forall2 (fun w o =>
         (d (lower w) = Ok [] -> o = w)
         /\ (forall first others, d (lower w) = Ok (first :: others) ->
             o = join (py " ") (List.map _arpabet_symbol_to_ipa (split first))
             /\ Forall (fun sym =>
                  let base := List.filter (fun c => negb (isdigit c)) sym in
                  _arpabet_symbol_to_ipa sym
                  = match ARPABET_TO_IPA !! base with
                    | Some glyphs => glyphs
                    | None => lower base
                    end)
                (split first)))
       words out_words.
Proof.
  intros Hp H.
  destruct (fallback_returns d words debug Hp H) as [outs [E F]].
  exists outs. split; [exact E|].
  clear E H. induction F as [|w o ws os R F IH]; constructor; [|exact IH].
  split.
  - intros Hw. exact (R [] Hw).
  - intros first others Hw. split; [exact (R (first :: others) Hw)|].
    apply List.Forall_forall. intros sym _.
    reflexivity.
Qed.

(** C8: when the calls to the dictionary return normally, the fallback
    raises exactly when the dictionary collaborator is unavailable; a call
    that raises returns no result, and in the unavailable case it has
    called and written nothing. *)
Theorem fallback_raises_iff_unavailable (words : list str) (debug : bool) :
  (forall d, pronouncing = Some d -> answers d words) ->
  (raises (words_to_ipa_with_pronouncing words debug) <-> pronouncing = None)
  /\ (raises (words_to_ipa_with_pronouncing words debug) ->
      forall out, ~ returns (words_to_ipa_with_pronouncing words debug) out)
  /\ (pronouncing = None -> trace (words_to_ipa_with_pronouncing words debug) = []).
Proof.
  intros H. split; [|split].
  - split.
    + intros Hr. destruct pronouncing as [d|] eqn:Hp; [|reflexivity].
      destruct (fallback_returns d words debug Hp (H d eq_refl)) as [outs [E _]].
      exfalso. exact (raises_not_returns _ Hr _ E).
    + intros Hp. unfold words_to_ipa_with_pronouncing. rewrite Hp.
      eexists. reflexivity.
  - apply raises_not_returns.
  - intros Hp. unfold words_to_ipa_with_pronouncing. rewrite Hp. reflexivity.
Qed.

(** ** The phrase converter *)

(** C6: for an empty or whitespace-only phrase the converter returns the
    empty string with an empty trace: neither collaborator is called,
    nothing is written and nothing is raised. *)
Theorem blank_phrase_empty (text sep : str) (debug : bool) :
  blank text = true -> text_to_ipa text sep debug = ([], Ok []).
Proof.
  intros H. unfold text_to_ipa. rewrite (strip_blank text H). reflexivity.
Qed.

(** C2, as amended: for a phrase that is not blank, when the primary
    converter is available and returns a string that is not blank, the
    converter returns that string trimmed; its only event is the call to
    the primary converter, so the dictionary is not called; and the value
    is the same for every separator. *)
Theorem primary_wins (convert : str -> result str) (text sep : str) (debug : bool) (res : str) :
  ipa = Some convert ->
  strip text <> [] ->
  convert (strip text) = Ok res ->
  strip res <> [] ->
  text_to_ipa text sep debug = ([CallConvert (strip text)], Ok (strip res))
  /\ forall sep', text_to_ipa text sep' debug = text_to_ipa text sep debug.
Proof.
  intros Hipa Htext Hconv Hres.
  assert (E : forall s, text_to_ipa text s debug
                        = ([CallConvert (strip text)], Ok (strip res))).
  { intros s. unfold text_to_ipa, try_eng_to_ipa.
    rewrite (truthy_true _ Htext). cbn [negb]. rewrite Hipa.
    unfold call. rewrite Hconv.
    pose proof (truthy_true _ Hres) as Hs.
    pose proof (truthy_strip _ Hs) as Hr.
    unfold bind at 2. rewrite Hr, Hs. reflexivity. }
  split; [apply E|]. intros sep'. rewrite !E. reflexivity.
Qed.

(** C7: without primary converter, with the default separator and a
    dictionary whose answer for "cat" is the single candidate "K AE1 T",
    the phrase "cat" is converted to "k æ t". *)
Theorem cat_scenario (d : str -> result (list str)) (debug : bool) :
  ipa = None ->
  pronouncing = Some d ->
  d (py "cat") = Ok [py "K AE1 T"] ->
  returns (text_to_ipa (py "cat") (py " ") debug) (py "k æ t").
Proof.
  intros Hipa Hpron Hd.
  unfold returns, text_to_ipa, try_eng_to_ipa, words_to_ipa_with_pronouncing.
  rewrite Hipa, Hpron.
  change (strip (py "cat")) with (py "cat").
  change (List.filter truthy (split (replace 10 (py " ") (py "cat")))) with [py "cat"].
  change (negb (truthy (py "cat"))) with false. cbv iota.
  unfold ret at 1. rewrite outcome_bind_ok.
  cbn [words_loop].
  change (lower (py "cat")) with (py "cat").
  unfold call. rewrite Hd.
  destruct debug; vm_compute; reflexivity.
Qed.

(** ** The command line *)

(** C10: [--text] given as the empty string, without [--file], is handled
    as if [--text] had not been given: the help text goes to the error
    stream and the exit status is 2; no empty line is printed with exit
    status 0. *)
Theorem empty_text_is_usage_error (sep : str) (debug : bool) :
  let given_empty := {| args_text := Some []; args_file := None;
                        args_sep := sep; args_debug := debug |} in
  let not_given := {| args_text := None; args_file := None;
                      args_sep := sep; args_debug := debug |} in
  main given_empty = ([Stderr HelpText], 2)
  /\ main given_empty = main not_given
  /\ main given_empty <> ([Stdout []], 0).
Proof.
  cbv zeta. split; [reflexivity | split; [reflexivity | discriminate]].
Qed.

(** ** Splitting, joining and trimming *)

Lemma space_is_32 : py " " = [32].
Proof. reflexivity. Qed.

Lemma forallb_rev {A} (p : A -> bool) (l : list A) :
  forallb p (rev l) = forallb p l.
Proof.
  destruct (forallb p l) eqn:E.
  - apply forallb_forall. intros x Hx. apply (proj1 (forallb_forall p l) E).
    apply in_rev. exact Hx.
  - destruct (forallb p (rev l)) eqn:E'; [|reflexivity].
    rewrite <- E. symmetry. apply forallb_forall. intros x Hx.
    apply (proj1 (forallb_forall p (rev l)) E'). apply in_rev.
    rewrite rev_involutive. exact Hx.
Qed.

Lemma token_rev (cur : str) :
  cur <> [] -> forallb (fun c => negb (isspace c)) cur = true ->
  token (rev cur) = true.
Proof.
  intros Hne H. unfold token. rewrite forallb_rev, H, andb_true_r.
  destruct cur as [|c cur]; [congruence|].
  simpl. destruct (rev cur); reflexivity.
Qed.

Lemma split_from_tokens (s cur : str) :
  forallb (fun c => negb (isspace c)) cur = true ->
  Forall (fun w => token w = true) (split_from cur s).
Proof.
  revert cur. induction s as [|c s IH]; intros cur H; simpl.
  - destruct cur as [|x cur]; constructor; [|constructor].
    apply token_rev; [discriminate | exact H].
  - destruct (isspace c) eqn:Ec.
    + destruct cur as [|x cur]; [apply IH; reflexivity|].
      constructor; [apply token_rev; [discriminate | exact H]|].
      apply IH. reflexivity.
    + apply IH. simpl. rewrite Ec. exact H.
Qed.

Lemma split_tokens (s : str) : Forall (fun w => token w = true) (split s).
Proof. apply split_from_tokens. reflexivity. Qed.

Lemma split_from_replace_newline (s cur : str) :
  split_from cur (replace 10 (py " ") s) = split_from cur s.
Proof.
  revert cur. induction s as [|c s IH]; intros cur; [reflexivity|].
  unfold replace in *. cbn [flat_map]. rewrite space_is_32.
  destruct (N.eqb_spec c 10) as [->|Hc].
  - cbn [app split_from].
    change (isspace 32) with true. change (isspace 10) with true. cbv iota.
    destruct cur; rewrite IH; reflexivity.
  - cbn [app split_from]. destruct (isspace c); [destruct cur|]; rewrite IH; reflexivity.
Qed.

Lemma split_from_token (x rest cur : str) :
  forallb (fun c => negb (isspace c)) x = true ->
  split_from cur (x ++ rest) = split_from (rev x ++ cur) rest.
Proof.
  revert cur. induction x as [|c x IH]; intros cur H; [reflexivity|].
  simpl in H. apply andb_prop in H as [Hc Hx].
  cbn [app split_from]. apply negb_true_iff in Hc. rewrite Hc.
  rewrite (IH (c :: cur) Hx). cbn [rev]. rewrite <- app_assoc. reflexivity.
Qed.

Lemma split_join_tokens (l : list str) :
  Forall (fun w => token w = true) l -> split (join (py " ") l) = l.
Proof.
  rewrite space_is_32. unfold split.
  induction 1 as [|x l Hx Hl IH]; [reflexivity|].
  unfold token in Hx. apply andb_prop in Hx as [Hne Hns].
  destruct l as [|y l].
  - cbn [join]. rewrite <- (app_nil_r x) at 1.
    rewrite (split_from_token x [] [] Hns), app_nil_r. cbn [split_from].
    destruct x as [|c x]; [discriminate|].
    destruct (rev (c :: x)) eqn:E.
    + apply (f_equal (@length _)) in E. rewrite length_rev in E. discriminate.
    + rewrite <- E, rev_involutive. reflexivity.
  - change (join [32] (x :: y :: l)) with (x ++ [32] ++ join [32] (y :: l)).
    rewrite (split_from_token x _ [] Hns), app_nil_r.
    cbn [app split_from]. change (isspace 32) with true. cbv iota.
    destruct x as [|c x]; [discriminate|].
    destruct (rev (c :: x)) eqn:E.
    + apply (f_equal (@length _)) in E. rewrite length_rev in E. discriminate.
    + rewrite <- E, rev_involutive, IH. reflexivity.
Qed.

Lemma lstrip_snoc (x : str) (c : char) :
  isspace c = false -> lstrip (x ++ [c]) = lstrip x ++ [c].
Proof.
  intros Hc. induction x as [|a x IH]; simpl.
  - rewrite Hc. reflexivity.
  - destruct (isspace a); [exact IH | reflexivity].
Qed.

Lemma lstrip_idempotent (s : str) : lstrip (lstrip s) = lstrip s.
Proof.
  induction s as [|c s IH]; [reflexivity|].
  simpl. destruct (isspace c) eqn:E; [exact IH|]. simpl. rewrite E. reflexivity.
Qed.

Lemma lstrip_head (s : str) :
  lstrip s = [] \/ exists c s', lstrip s = c :: s' /\ isspace c = false.
Proof.
  induction s as [|c s IH]; [left; reflexivity|].
  simpl. destruct (isspace c) eqn:E; [exact IH|]. right. eauto.
Qed.

Lemma lstrip_rstrip (a : str) : lstrip a = a -> lstrip (rstrip a) = rstrip a.
Proof.
  intros Ha. destruct (lstrip_head a) as [E | [c [a' [E Hc]]]]; rewrite Ha in E.
  - subst a. reflexivity.
  - subst a. unfold rstrip. cbn [rev]. rewrite (lstrip_snoc _ _ Hc).
    rewrite rev_app_distr. simpl. rewrite Hc. reflexivity.
Qed.

Lemma rstrip_idempotent (a : str) : rstrip (rstrip a) = rstrip a.
Proof. unfold rstrip. rewrite rev_involutive, lstrip_idempotent. reflexivity. Qed.

Lemma strip_idempotent (s : str) : strip (strip s) = strip s.
Proof.
  unfold strip.
  rewrite (lstrip_rstrip (lstrip s) (lstrip_idempotent s)).
  apply rstrip_idempotent.
Qed.

(** ** Laws of the monad *)

Lemma bind_ret_l {A B} (a : A) (f : A -> M B) : bind (ret a) f = f a.
Proof. unfold bind, ret. destruct (f a). reflexivity. Qed.

Lemma bind_ok {A B} (t : list event) (a : A) (f : A -> M B) :
  bind (t, Ok a) f = (t ++ fst (f a), snd (f a)).
Proof. unfold bind. destruct (f a). reflexivity. Qed.

Lemma bind_ext {A B} (m : M A) (f g : A -> M B) :
  (forall a, f a = g a) -> bind m f = bind m g.
Proof. intros H. destruct m as [t [a|e]]; simpl; [rewrite H|]; reflexivity. Qed.

Lemma trace_bind_ok {A B} (t : list event) (a : A) (f : A -> M B) :
  trace (bind (t, Ok a) f) = t ++ trace (f a).
Proof. unfold bind. destruct (f a). reflexivity. Qed.

Lemma quiet_app (t1 t2 : list event) : quiet (t1 ++ t2) = quiet t1 ++ quiet t2.
Proof. apply List.filter_app. Qed.

Lemma hush_bind {A B} (m : M A) (f : A -> M B) :
  hush (bind m f) = bind (hush m) (fun a => hush (f a)).
Proof.
  destruct m as [t [a|e]]; unfold hush, bind, trace, outcome; simpl.
  - destruct (f a) as [t' r]. simpl. rewrite quiet_app. reflexivity.
  - reflexivity.
Qed.

(** ** More on the symbol table and the translator *)

Lemma table_entry (k v : str) :
  ARPABET_TO_IPA !! k = Some v ->
  (forallb (fun c => negb (isdigit c)) k = true /\ strip_digits k = k) /\ token v = true.
Proof.
  intros H. apply elem_of_list_to_map_2 in H. apply list_elem_of_In in H.
  cbv [In] in H.
  repeat (destruct H as [H|H];
          [injection H as <- <-; repeat split; vm_compute; reflexivity|]).
  destruct H.
Qed.

(** Every key of the table is free of digit characters and is translated
    to its entry, with or without a stress digit after it; the entry is a
    non-empty string without whitespace. *)
Theorem table_symbol_translates (k v : str) (d : char) :
  ARPABET_TO_IPA !! k = Some v ->
  In d stress_digits ->
  forallb (fun c => negb (isdigit c)) k = true
  /\ _arpabet_symbol_to_ipa k = v
  /\ _arpabet_symbol_to_ipa (k ++ [d]) = v
  /\ token v = true.
Proof.
  intros H Hd. destruct (table_entry k v H) as [[Hnd Hk] Hv].
  assert (E : _arpabet_symbol_to_ipa k = v).
  { unfold _arpabet_symbol_to_ipa. rewrite Hk, H. reflexivity. }
  split; [exact Hnd|]. split; [exact E|]. split; [|exact Hv].
  unfold _arpabet_symbol_to_ipa.
  rewrite (strip_digits_snoc k d (stress_digit_isdigit d Hd)), Hk, H.
  reflexivity.
Qed.

(** ** The translator as the interpreter runs it *)

Lemma keep_non_digits_chars (s : str) :
  keep_non_digits (List.map (fun c => VStr [c]) s)
  = ret (List.map (fun c => VStr [c]) (strip_digits s)).
Proof.
  induction s as [|c s IH]; [reflexivity|].
  cbn [List.map keep_non_digits call_isdigit truthy forallb].
  rewrite bind_ret_l, IH, bind_ret_l. unfold strip_digits. cbn [List.filter].
  rewrite andb_true_r. destruct (isdigit c); reflexivity.
Qed.

Lemma join_values_chars (s : str) :
  join_values (List.map (fun c => VStr [c]) s) = ret s.
Proof.
  induction s as [|c s IH]; [reflexivity|].
  cbn [List.map join_values]. rewrite IH, bind_ret_l. reflexivity.
Qed.

(** A value that is not a string or a list has no iteration: there the
    translator raises. *)
Lemma translator_rejects_non_sequences (n : Z) :
  raises (run_arpabet_symbol_to_ipa VNone)
  /\ raises (run_arpabet_symbol_to_ipa (VInt n)).
Proof. split; eexists; reflexivity. Qed.

(** C9: run by the interpreter on a string, every operation of the
    translator returns: the run ends with a string, which is the
    translation, it raises nothing and its trace is empty: nothing is
    called, read or written.  This holds for every input string. *)
Theorem translator_total (sym : str) :
  run_arpabet_symbol_to_ipa (VStr sym)
  = ([], Ok (VStr (_arpabet_symbol_to_ipa sym)))
  /\ _arpabet_symbol_to_ipa sym
     = match ARPABET_TO_IPA !! List.filter (fun c => negb (isdigit c)) sym with
       | Some glyphs => glyphs
       | None => lower (List.filter (fun c => negb (isdigit c)) sym)
       end.
Proof.
  split.
  - unfold run_arpabet_symbol_to_ipa. cbn [iterate].
    rewrite bind_ret_l, keep_non_digits_chars, bind_ret_l, join_values_chars, bind_ret_l.
    cbn [call_lower]. rewrite bind_ret_l. cbn [table_get].
    unfold _arpabet_symbol_to_ipa.
    destruct (ARPABET_TO_IPA !! strip_digits sym); reflexivity.
  - reflexivity.
Qed.

(** A pronunciation made of symbols of the table is rendered with one
    token per symbol: splitting the rendering on whitespace gives back
    the translations of the symbols, one by one. *)
Theorem known_symbols_one_token_each (arpa : list str) :
  Forall (fun sym => is_Some (ARPABET_TO_IPA !! strip_digits sym)) arpa ->
  split (arpabet_list_to_ipa arpa) = List.map _arpabet_symbol_to_ipa arpa.
Proof.
  intros H. unfold arpabet_list_to_ipa. apply split_join_tokens.
  induction H as [|sym arpa [v Hv] _ IH]; [constructor|].
  cbn [List.map]. constructor; [|exact IH].
  unfold _arpabet_symbol_to_ipa. rewrite Hv. simpl.
  exact (proj2 (table_entry _ _ Hv)).
Qed.

(** ** More on the fallback *)

(** The words that [text_to_ipa] hands to the fallback are those of
    [text.split()]: replacing the newlines by spaces and dropping the
    empty tokens change nothing, and every word is non-empty and free of
    whitespace. *)
Theorem fallback_words (text : str) :
  List.filter truthy (split (replace 10 (py " ") text)) = split text
  /\ Forall (fun w => token w = true) (split text).
Proof.
  split; [|apply split_tokens].
  unfold split. rewrite split_from_replace_newline.
  apply filter_all. apply forallb_forall. intros w Hw.
  pose proof (proj1 (List.Forall_forall _ _) (split_tokens text) w Hw) as Ht.
  unfold token in Ht. apply andb_prop in Ht as [Ht _]. exact Ht.
Qed.

Lemma words_loop_hush (d : str -> result (list str)) (words : list str) :
  forall acc, hush (words_loop d true words acc) = words_loop d false words acc.
Proof.
  induction words as [|w rest IH]; intros acc; [reflexivity|].
  cbn [words_loop]. rewrite hush_bind.
  change (hush (call (CallPhones (lower w)) (d (lower w))))
    with (call (CallPhones (lower w)) (d (lower w))).
  apply bind_ext. intros phones. rewrite hush_bind.
  change (hush (when true (emit (Stderr (DebugPhones w phones))))) with (ret tt).
  change (when false (emit (Stderr (DebugPhones w phones)))) with (ret tt).
  rewrite !bind_ret_l. destruct phones; apply IH.
Qed.

Lemma words_loop_queries (d : str -> result (list str)) (words : list str) :
  answers d words ->
  forall acc, trace (words_loop d false words acc)
              = List.map (fun w => CallPhones (lower w)) words.
Proof.
  induction words as [|w rest IH]; intros H acc; [reflexivity|].
  destruct (H w (or_introl eq_refl)) as [phones Hw].
  assert (Hrest : answers d rest) by (intros x Hx; apply H; right; exact Hx).
  cbn [words_loop List.map]. unfold call. rewrite Hw, trace_bind_ok.
  change (when false (emit (Stderr (DebugPhones w phones)))) with (ret tt).
  rewrite bind_ret_l. destruct phones; rewrite (IH Hrest); reflexivity.
Qed.

(** With a dictionary that answers for every word, the fallback queries
    it once per word, in order, with the lowercased word; with [debug]
    these queries are what is left of the trace without the diagnostics. *)
Theorem fallback_queries (d : str -> result (list str)) (words : list str) (debug : bool) :
  pronouncing = Some d -> answers d words ->
  quiet (trace (words_to_ipa_with_pronouncing words debug))
  = List.map (fun w => CallPhones (lower w)) words.
Proof.
  intros Hp H.
  assert (E : forall m : M (list str),
             trace (bind m (fun out_words => ret (join (py " ") out_words))) = trace m).
  { intros [t [a|e]]; simpl; [rewrite app_nil_r|]; reflexivity. }
  assert (Q : quiet (List.map (fun w => CallPhones (lower w)) words)
              = List.map (fun w => CallPhones (lower w)) words).
  { clear. induction words as [|w ws IH]; [reflexivity|].
    cbn [List.map]. unfold quiet in *. cbn [List.filter]. rewrite IH. reflexivity. }
  unfold words_to_ipa_with_pronouncing. rewrite Hp, E.
  destruct debug.
  - change (quiet (trace (words_loop d true words [])))
      with (trace (hush (words_loop d true words []))).
    rewrite words_loop_hush. apply (words_loop_queries d words H).
  - rewrite (words_loop_queries d words H). exact Q.
Qed.

(** ** More on the phrase converter *)

Lemma text_to_ipa_strip (text sep : str) (debug : bool) :
  text_to_ipa (strip text) sep debug = text_to_ipa text sep debug.
Proof. unfold text_to_ipa. rewrite strip_idempotent. reflexivity. Qed.

Lemma lstrip_app (x y : str) :
  lstrip (x ++ y) = if truthy (lstrip x) then lstrip x ++ y else lstrip y.
Proof.
  induction x as [|c x IH]; [reflexivity|].
  simpl. destruct (isspace c); [exact IH | reflexivity].
Qed.

Lemma strip_padded (a text b : str) :
  blank a = true -> blank b = true -> strip (a ++ text ++ b) = strip text.
Proof.
  intros Ha Hb. unfold strip.
  rewrite lstrip_app, (lstrip_blank a Ha). cbn [truthy]. cbv iota.
  rewrite lstrip_app. destruct (lstrip text) as [|c t] eqn:E; cbn [truthy]; cbv iota.
  - rewrite (lstrip_blank b Hb). reflexivity.
  - unfold rstrip. rewrite rev_app_distr, lstrip_app.
    assert (Hr : blank (rev b) = true) by (unfold blank in *; rewrite forallb_rev; exact Hb).
    rewrite (lstrip_blank _ Hr). reflexivity.
Qed.

(** Whitespace around the phrase does not matter: converting the trimmed
    phrase, or the phrase with more whitespace before and after it, is
    converting the phrase, events included.  So the trimming of each line
    in file mode changes nothing of what is converted. *)
Theorem converter_ignores_surrounding_whitespace (a text b sep : str) (debug : bool) :
  blank a = true -> blank b = true ->
  text_to_ipa (a ++ text ++ b) sep debug = text_to_ipa text sep debug
  /\ text_to_ipa (strip text) sep debug = text_to_ipa text sep debug.
Proof.
  intros Ha Hb. split; [|apply text_to_ipa_strip].
  unfold text_to_ipa. rewrite (strip_padded a text b Ha Hb). reflexivity.
Qed.

Lemma try_eng_to_ipa_hush (text : str) :
  hush (try_eng_to_ipa text true) = try_eng_to_ipa text false.
Proof.
  unfold try_eng_to_ipa. destruct ipa as [convert|]; [|reflexivity].
  unfold call. destruct (convert text) as [res|e]; [|reflexivity].
  cbn. destruct (truthy res && truthy (strip res)); reflexivity.
Qed.

Lemma words_to_ipa_hush (words : list str) :
  hush (words_to_ipa_with_pronouncing words true)
  = words_to_ipa_with_pronouncing words false.
Proof.
  unfold words_to_ipa_with_pronouncing. destruct pronouncing as [d|]; [|reflexivity].
  rewrite hush_bind, words_loop_hush. reflexivity.
Qed.

Lemma text_to_ipa_hush (text sep : str) :
  hush (text_to_ipa text sep true) = text_to_ipa text sep false.
Proof.
  unfold text_to_ipa. destruct (negb (truthy (strip text))); [reflexivity|].
  rewrite hush_bind, try_eng_to_ipa_hush. apply bind_ext. intros [res|]; [reflexivity|].
  rewrite hush_bind, words_to_ipa_hush. reflexivity.
Qed.

(** The debug flag only adds diagnostics: with and without it the
    converter returns or raises the same, and its trace without what goes
    to the error stream is the trace of the run without the flag, which
    writes nothing there. *)
Theorem debug_only_adds_diagnostics (text sep : str) :
  outcome (text_to_ipa text sep true) = outcome (text_to_ipa text sep false)
  /\ quiet (trace (text_to_ipa text sep true)) = trace (text_to_ipa text sep false)
  /\ quiet (trace (text_to_ipa text sep false)) = trace (text_to_ipa text sep false).
Proof.
  pose proof (text_to_ipa_hush text sep) as H.
  split; [exact (f_equal outcome H)|]. split; [exact (f_equal trace H)|].
  rewrite <- H. unfold hush, trace. cbn [fst]. unfold quiet.
  induction (fst (text_to_ipa text sep true)) as [|ev t IH]; [reflexivity|].
  cbn [List.filter]. destruct ev; cbn [List.filter]; rewrite ?IH; reflexivity.
Qed.

Lemma try_eng_to_ipa_returns (text : str) (debug : bool) :
  exists primary, outcome (try_eng_to_ipa text debug) = Ok primary.
Proof.
  unfold try_eng_to_ipa. destruct ipa as [convert|]; [|eexists; reflexivity].
  unfold call. destruct (convert text) as [res|e].
  - cbn. destruct (truthy res && truthy (strip res)); eexists; reflexivity.
  - destruct debug; eexists; reflexivity.
Qed.

Lemma text_to_ipa_returns
    (d : str -> result (list str)) (text sep : str) (debug : bool) :
  pronouncing = Some d ->
  (forall w, exists phones, d w = Ok phones) ->
  exists out, returns (text_to_ipa text sep debug) out.
Proof.
  intros Hp Hd. unfold text_to_ipa, returns.
  destruct (negb (truthy (strip text))); [eexists; reflexivity|].
  destruct (try_eng_to_ipa_returns (strip text) debug) as [primary E].
  destruct (try_eng_to_ipa (strip text) debug) as [t r]. simpl in E. subst r.
  rewrite outcome_bind_ok. destruct primary as [res|]; [eexists; reflexivity|].
  set (words := List.filter truthy (split (replace 10 (py " ") (strip text)))).
  assert (Ha : answers d words) by (intros w _; apply Hd).
  destruct (fallback_returns d words debug Hp Ha) as [outs [F _]].
  unfold returns in F.
  destruct (words_to_ipa_with_pronouncing words debug) as [t' r']. simpl in F. subst r'.
  rewrite outcome_bind_ok. eexists. reflexivity.
Qed.

(** With a dictionary that is available and answers for every word, the
    converter returns a string for every phrase: whatever the primary
    converter does (absent, raising, returning anything), no exception
    leaves [text_to_ipa]. *)
Theorem converter_returns_with_dictionary
    (d : str -> result (list str)) (text sep : str) (debug : bool) :
  pronouncing = Some d ->
  (forall w, exists phones, d w = Ok phones) ->
  exists out, returns (text_to_ipa text sep debug) out.
Proof. apply text_to_ipa_returns. Qed.

Lemma forallb_trace_bind {A B} (P : event -> bool) (m : M A) (f : A -> M B) :
  forallb P (trace m) = true ->
  (forall a, forallb P (trace (f a)) = true) ->
  forallb P (trace (bind m f)) = true.
Proof.
  intros Hm Hf. destruct m as [t [a|e]]; [|exact Hm].
  rewrite trace_bind_ok, forallb_app. unfold trace in Hm. simpl in Hm.
  rewrite Hm. apply Hf.
Qed.

Lemma words_loop_conversion_events (d : str -> result (list str)) (debug : bool)
    (words : list str) :
  forall acc, forallb conversion_event (trace (words_loop d debug words acc)) = true.
Proof.
  induction words as [|w rest IH]; intros acc; [reflexivity|].
  cbn [words_loop]. apply forallb_trace_bind; [reflexivity|]. intros phones.
  apply forallb_trace_bind; [destruct debug; reflexivity|]. intros _.
  destruct phones; apply IH.
Qed.

Lemma text_to_ipa_conversion_events (text sep : str) (debug : bool) :
  forallb conversion_event (trace (text_to_ipa text sep debug)) = true.
Proof.
  unfold text_to_ipa. destruct (negb (truthy (strip text))); [reflexivity|].
  apply forallb_trace_bind.
  - unfold try_eng_to_ipa. destruct ipa as [convert|]; [|reflexivity].
    unfold call. destruct (convert (strip text)) as [res|e].
    + cbn. destruct (truthy res && truthy (strip res)); reflexivity.
    + destruct debug; reflexivity.
  - intros [res|]; [reflexivity|].
    apply forallb_trace_bind; [|reflexivity].
    unfold words_to_ipa_with_pronouncing. destruct pronouncing as [d|]; [|reflexivity].
    apply forallb_trace_bind; [apply words_loop_conversion_events | reflexivity].
Qed.

(** ** More on the command line *)

Lemma lstrip_nil_blank (s : str) : lstrip s = [] -> blank s = true.
Proof.
  unfold blank. induction s as [|c s IH]; [reflexivity|].
  simpl. destruct (isspace c); [exact IH | discriminate].
Qed.

Lemma strip_nil_blank (s : str) : strip s = [] -> blank s = true.
Proof.
  unfold strip, rstrip. intros H.
  apply (f_equal (@rev char)) in H. rewrite rev_involutive in H. simpl in H.
  apply lstrip_nil_blank in H. unfold blank in H. rewrite forallb_rev in H.
  apply lstrip_nil_blank. rewrite <- lstrip_idempotent.
  apply (lstrip_blank _ H).
Qed.

Lemma truthy_strip_blank (s : str) : truthy (strip s) = negb (blank s).
Proof.
  destruct (blank s) eqn:B; [rewrite (strip_blank s B); reflexivity|].
  destruct (strip s) eqn:E; [|reflexivity].
  rewrite (strip_nil_blank s E) in B. discriminate.
Qed.

Lemma printed_app (t1 t2 : list event) :
  printed (t1 ++ t2) = printed t1 ++ printed t2.
Proof. apply flat_map_app. Qed.

Lemma conversion_events_no_stdout (t : list event) :
  forallb conversion_event t = true -> printed t = [].
Proof.
  induction t as [|ev t IH]; [reflexivity|].
  simpl. intros H. apply andb_prop in H as [Hev Ht].
  destruct ev; try discriminate; exact (IH Ht).
Qed.

Lemma file_loop_blank (sep : str) (debug : bool) (lines : list str) :
  Forall (fun line => blank line = true) lines ->
  forall count, file_loop sep debug lines count = ([], Ok count).
Proof.
  induction 1 as [|line rest Hl _ IH]; intros count; [reflexivity|].
  cbn [file_loop]. rewrite truthy_strip_blank, Hl. exact (IH count).
Qed.

Lemma file_loop_lines (sep : str) (debug : bool) (lines : list str) :
  (forall s, write_stdout s = Ok tt) ->
  (forall text, exists out, returns (text_to_ipa text sep debug) out) ->
  forall count, exists t,
    file_loop sep debug lines count
    = (t, Ok (count + N.of_nat (length (List.filter (fun l => negb (blank l)) lines))))
    /\ Forall2 (fun line out => returns (text_to_ipa line sep debug) out)
         (List.filter (fun l => negb (blank l)) lines) (printed t)
    /\ forallb (fun ev => match ev with OpenFile _ => false | _ => true end) t = true.
Proof.
  intros Hw Hret. induction lines as [|line rest IH]; intros count.
  - exists []. cbn. rewrite N.add_0_r. repeat split. constructor.
  - cbn [file_loop List.filter]. rewrite truthy_strip_blank.
    destruct (blank line) eqn:B; cbn [negb]; [exact (IH count)|].
    rewrite text_to_ipa_strip.
    destruct (Hret line) as [out Hout].
    pose proof (text_to_ipa_conversion_events line sep debug) as Hev.
    unfold returns in Hout.
    destruct (text_to_ipa line sep debug) as [t1 r1] eqn:E.
    unfold trace, outcome in *. simpl in Hout, Hev. subst r1.
    destruct (IH (count + 1)) as [t2 [E2 [F2 O2]]].
    exists (t1 ++ [Stdout out] ++ t2).
    rewrite bind_ok. unfold print. rewrite Hw. unfold emit. rewrite bind_ok, E2.
    cbn [fst snd]. split; [|split].
    + cbn [length]. rewrite Nat2N.inj_succ. do 2 f_equal. lia.
    + rewrite printed_app, (conversion_events_no_stdout t1 Hev).
      cbn. constructor; [unfold returns; rewrite E; reflexivity | exact F2].
    + rewrite forallb_app. cbn. rewrite O2, andb_true_r.
      clear -Hev. induction t1 as [|ev t1 IH]; [reflexivity|].
      simpl in *. apply andb_prop in Hev as [H1 H2]. rewrite (IH H2).
      destruct ev; try discriminate H1; reflexivity.
Qed.

Lemma main_of_body (args : Namespace) :
  falsy (args_text args) && falsy (args_file args) = false ->
  main args
  = match main_body args with
    | (t, Ok _) => (t, 0)
    | (t, Raise e) => (t ++ [Stderr (error_line args e)], 1)
    end.
Proof.
  intros H. unfold main. rewrite H.
  destruct (main_body args) as [t [u|e]]; [reflexivity|]. destruct e; reflexivity.
Qed.

Lemma error_lines_none (t : list event) :
  forallb (fun ev => negb (error_line_event ev)) t = true -> error_lines t = [].
Proof.
  unfold error_lines. induction t as [|ev t IH]; [reflexivity|].
  simpl. intros H. apply andb_prop in H as [Hev Ht].
  apply negb_true_iff in Hev. rewrite Hev. exact (IH Ht).
Qed.

Lemma conversion_events_no_error (t : list event) :
  forallb conversion_event t = true ->
  forallb (fun ev => negb (error_line_event ev)) t = true.
Proof.
  induction t as [|ev t IH]; [reflexivity|].
  simpl. intros H. apply andb_prop in H as [Hev Ht]. rewrite (IH Ht), andb_true_r.
  destruct ev as [| | | |d]; try discriminate Hev; try reflexivity.
  destruct d; try discriminate Hev; reflexivity.
Qed.

Lemma print_no_error (s : str) :
  forallb (fun ev => negb (error_line_event ev)) (trace (print s)) = true.
Proof. unfold print. destruct (write_stdout s); reflexivity. Qed.

Lemma file_loop_no_error (sep : str) (debug : bool) (lines : list str) :
  forall count,
    forallb (fun ev => negb (error_line_event ev))
      (trace (file_loop sep debug lines count)) = true.
Proof.
  induction lines as [|line rest IH]; intros count; [reflexivity|].
  cbn [file_loop]. destruct (negb (truthy (strip line))); [apply IH|].
  apply forallb_trace_bind.
  - apply conversion_events_no_error, text_to_ipa_conversion_events.
  - intros out. apply forallb_trace_bind; [apply print_no_error|]. intros _. apply IH.
Qed.

Lemma main_body_no_error (args : Namespace) :
  forallb (fun ev => negb (error_line_event ev)) (trace (main_body args)) = true.
Proof.
  unfold main_body. destruct (negb (falsy (args_text args))).
  - apply forallb_trace_bind; [|intros out; apply print_no_error].
    apply conversion_events_no_error, text_to_ipa_conversion_events.
  - apply forallb_trace_bind; [reflexivity|]. intros fh.
    apply forallb_trace_bind; [apply file_loop_no_error|]. intros count.
    apply forallb_trace_bind; [destruct (snd fh); reflexivity|]. intros _.
    destruct (count =? 0); reflexivity.
Qed.

(** The exit status tells whether an error line was written.  With
    status 2 (neither a text nor a file given) only the help text is
    written.  With status 0 no error line is written, whatever was
    converted and printed.  With status 1 exactly one error line is
    written, and it is the last thing written. *)
Theorem exit_status (args : Namespace) :
  (falsy (args_text args) && falsy (args_file args) = true
   /\ main args = ([Stderr HelpText], 2))
  \/ (falsy (args_text args) && falsy (args_file args) = false
      /\ snd (main args) = 0
      /\ error_lines (fst (main args)) = [])
  \/ (falsy (args_text args) && falsy (args_file args) = false
      /\ snd (main args) = 1
      /\ exists t d, fst (main args) = t ++ [Stderr d]
         /\ error_lines t = []
         /\ error_lines [Stderr d] = [Stderr d]).
Proof.
  destruct (falsy (args_text args) && falsy (args_file args)) eqn:C.
  - left. split; [reflexivity|]. unfold main. rewrite C. reflexivity.
  - right. rewrite (main_of_body args C).
    pose proof (error_lines_none _ (main_body_no_error args)) as H.
    destruct (main_body args) as [t [u|e]]; unfold trace in H; cbn [fst snd] in *.
    + left. repeat split. exact H.
    + right. split; [reflexivity|]. split; [reflexivity|].
      exists t, (error_line args e). split; [reflexivity|]. split; [exact H|].
      destruct e; reflexivity.
Qed.

(** A file that does not exist: the file is opened once, the error line
    names the path and the exit status is 1; nothing is converted. *)
Theorem missing_file (args : Namespace) (path msg : str) :
  falsy (args_text args) = true ->
  args_file args = Some path -> path <> [] ->
  open_file path = Raise (FileNotFoundError msg) ->
  main args = ([OpenFile (Some path); Stderr (ErrFileNotFound (Some path))], 1).
Proof.
  intros Ht Hf Hp Ho. unfold main, main_body.
  rewrite Ht, Hf. cbn [falsy negb andb]. rewrite (truthy_true _ Hp). cbn [negb].
  unfold call. rewrite Ho. reflexivity.
Qed.

(** A file without a non-blank line, the empty file among them: after the
    file is opened only the warning is written, no collaborator is
    called, and the exit status is 0. *)
Theorem file_without_phrases (args : Namespace) (path : str) (lines : list str) :
  falsy (args_text args) = true ->
  args_file args = Some path -> path <> [] ->
  open_file path = Ok (lines, None) ->
  Forall (fun line => blank line = true) lines ->
  main args = ([OpenFile (Some path); Stderr WarnNoLines], 0).
Proof.
  intros Ht Hf Hp Ho Hb. unfold main, main_body.
  rewrite Ht, Hf. cbn [falsy negb andb]. rewrite (truthy_true _ Hp). cbn [negb].
  unfold call. rewrite Ho. unfold bind at 1. cbn [fst snd].
  rewrite (file_loop_blank _ _ lines Hb 0). reflexivity.
Qed.

(** File mode with a dictionary that answers for every word and a
    standard output that takes every string: the exit status is 0 and
    [print] is called once for each non-blank line of the file, in the
    order of the file, with the conversion of that line; blank lines give
    no output. *)
Theorem file_mode_one_line_per_phrase
    (d : str -> result (list str)) (args : Namespace) (path : str) (lines : list str) :
  pronouncing = Some d ->
  (forall w, exists phones, d w = Ok phones) ->
  (forall s, write_stdout s = Ok tt) ->
  falsy (args_text args) = true ->
  args_file args = Some path -> path <> [] ->
  open_file path = Ok (lines, None) ->
  snd (main args) = 0
  /\ Forall2 (fun line out =>
                returns (text_to_ipa line (args_sep args) (args_debug args)) out)
       (List.filter (fun l => negb (blank l)) lines)
       (printed (fst (main args))).
Proof.
  intros Hd Ha Hout Ht Hf Hp Ho.
  destruct (file_loop_lines (args_sep args) (args_debug args) lines Hout
              (fun text => text_to_ipa_returns d text _ _ Hd Ha) 0) as [t [E [F _]]].
  assert (Hm : exists w, main args = (OpenFile (Some path) :: t ++ w, 0)
                         /\ printed w = []).
  { unfold main, main_body.
    rewrite Ht, Hf. cbn [falsy negb andb]. rewrite (truthy_true _ Hp). cbn [negb].
    unfold call. rewrite Ho. unfold bind at 1. cbn [fst snd].
    rewrite E. unfold bind at 1. rewrite bind_ret_l.
    destruct (0 + N.of_nat (length (List.filter (fun l => negb (blank l)) lines)) =? 0).
    - exists [Stderr WarnNoLines]. split; reflexivity.
    - exists []. split; reflexivity. }
  destruct Hm as [w [Hm Hw]]. rewrite Hm. cbn [fst snd]. split; [reflexivity|].
  change (printed (OpenFile (Some path) :: t ++ w)) with (printed (t ++ w)).
  rewrite printed_app, Hw, app_nil_r. exact F.
Qed.

(** A text on the command line comes first: the file is not opened, also
    when one is given; the conversion calls the collaborators and writes
    debug diagnostics only.  When the conversion returns and the result
    can be printed, the print is the last event and the exit status is 0;
    when the print raises, or the conversion does, nothing is printed,
    the error line of that exception ends the trace and the exit status
    is 1. *)
Theorem text_mode (args : Namespace) :
  falsy (args_text args) = false ->
  let conversion := text_to_ipa (default [] (args_text args)) (args_sep args) (args_debug args) in
  forallb conversion_event (trace conversion) = true
  /\ match outcome conversion with
     | Ok out =>
       match write_stdout out with
       | Ok _ => main args = (trace conversion ++ [Stdout out], 0)
       | Raise e => main args = (trace conversion ++ [Stderr (error_line args e)], 1)
       end
     | Raise e => main args = (trace conversion ++ [Stderr (error_line args e)], 1)
     end.
Proof.
  intros Ht conversion. split; [apply text_to_ipa_conversion_events|].
  assert (C : falsy (args_text args) && falsy (args_file args) = false)
    by (rewrite Ht; reflexivity).
  rewrite (main_of_body args C). unfold main_body. rewrite Ht. cbn [negb].
  fold conversion. destruct conversion as [t [out|e]]; cbn [outcome trace fst snd].
  - rewrite bind_ok. unfold print. destruct (write_stdout out) as [u|e]; cbn.
    + reflexivity.
    + rewrite app_nil_r. reflexivity.
  - reflexivity.
Qed.

(** Without dictionary module and without primary converter nothing can
    be converted: for a text that is not blank, [main] calls nothing,
    prints nothing on the standard output, writes the error of the
    fallback to the error stream and ends with status 1. *)
Theorem no_converter_at_all (args : Namespace) (text : str) :
  ipa = None -> pronouncing = None ->
  args_text args = Some text -> blank text = false ->
  main args
  = ([Stderr (ErrException (RuntimeError
        (py "Module 'pronouncing' not available and eng_to_ipa failed.")))], 1).
Proof.
  intros Hi Hp Ht Hb.
  assert (Hs : truthy (strip text) = true) by (rewrite truthy_strip_blank, Hb; reflexivity).
  pose proof (truthy_strip _ Hs) as Hne.
  unfold main, main_body. rewrite Ht. change (default [] (Some text)) with text.
  cbn [falsy]. rewrite Hne. cbn [negb andb].
  unfold text_to_ipa, try_eng_to_ipa, words_to_ipa_with_pronouncing.
  rewrite Hs, Hi, Hp. reflexivity.
Qed.

End Program.

(** ** Concrete runs *)

(** C1: with the separator "-", the dictionary of "cat" and no primary
    converter, the fallback renders "cat" as "k æ t" and the phrase
    converter returns "k-æ-t": the separator stands between the phones of
    the one word and the spaces between them are gone.  For "cat nap" the
    result is "k-æ-t-nap": the boundary between the two words is marked as
    the boundaries between phones are. *)
Theorem separator_between_phones (uni_isdigit : char -> bool) (uni_lower : str -> str) :
  returns (words_to_ipa_with_pronouncing uni_isdigit uni_lower (Some cat_dictionary)
             [py "cat"] false)
          (py "k æ t")
  /\ returns (text_to_ipa uni_isdigit uni_lower None (Some cat_dictionary)
                (py "cat") (py "-") false)
             (py "k-æ-t")
  /\ returns (text_to_ipa uni_isdigit uni_lower None (Some cat_dictionary)
                (py "cat nap") (py "-") false)
             (py "k-æ-t-nap").
Proof. repeat split; vm_compute; reflexivity. Qed.

(** C2, as stated, fails: the primary converter returns the non-empty
    string " " for "cat", and the converter calls the dictionary and
    returns the fallback's rendering, which changes with the separator. *)
Lemma primary_blank_output_falls_back :
  blank_converter (py "cat") = Ok (py " ")
  /\ py " " <> []
  /\ forall uni_isdigit uni_lower,
      text_to_ipa uni_isdigit uni_lower (Some blank_converter) (Some cat_dictionary)
        (py "cat") (py " ") false
      = ([CallConvert (py "cat"); CallPhones (py "cat")], Ok (py "k æ t"))
      /\ text_to_ipa uni_isdigit uni_lower (Some blank_converter) (Some cat_dictionary)
           (py "cat") (py "-") false
         = ([CallConvert (py "cat"); CallPhones (py "cat")], Ok (py "k-æ-t")).
Proof.
  split; [reflexivity|]. split; [discriminate|].
  intros uni_isdigit uni_lower. split; vm_compute; reflexivity.
Qed.

(** C4, as stated, fails: "Q2" is not a key of the table, and it is
    translated to "q", which is not the lowercased input "q2". *)
Lemma unknown_symbol_loses_digits :
  ARPABET_TO_IPA !! py "Q2" = None
  /\ forall uni_isdigit uni_lower,
      _arpabet_symbol_to_ipa uni_isdigit uni_lower (py "Q2") = py "q"
      /\ lower uni_lower (py "Q2") = py "q2"
      /\ _arpabet_symbol_to_ipa uni_isdigit uni_lower (py "Q2") <> lower uni_lower (py "Q2").
Proof.
  split; [vm_compute; reflexivity|].
  intros uni_isdigit uni_lower.
  assert (E1 : _arpabet_symbol_to_ipa uni_isdigit uni_lower (py "Q2") = py "q")
    by (vm_compute; reflexivity).
  assert (E2 : lower uni_lower (py "Q2") = py "q2") by (vm_compute; reflexivity).
  split; [exact E1|]. split; [exact E2|].
  rewrite E1, E2. vm_compute. discriminate.
Qed.

(** ** Instances of the theorems *)

Lemma stress_digit_ignored_AE1 :
  In (py "AE") ARPABET_VOWELS
  /\ In 49 stress_digits
  /\ _arpabet_symbol_to_ipa ascii_isdigit ascii_lower_only (py "AE1")
     = _arpabet_symbol_to_ipa ascii_isdigit ascii_lower_only (py "AE")
  /\ ARPABET_TO_IPA !! py "AE"
     = Some (_arpabet_symbol_to_ipa ascii_isdigit ascii_lower_only (py "AE1")).
Proof.
  assert (Hv : In (py "AE") ARPABET_VOWELS) by (right; left; reflexivity).
  assert (Hd : In 49 stress_digits) by (right; left; reflexivity).
  split; [exact Hv|]. split; [exact Hd|].
  exact (stress_digit_ignored ascii_isdigit ascii_lower_only (py "AE") 49 Hv Hd).
Defined.

Lemma unknown_symbol_passthrough_Q2 :
  ARPABET_TO_IPA !! strip_digits ascii_isdigit (py "Q2") = None
  /\ _arpabet_symbol_to_ipa ascii_isdigit ascii_lower_only (py "Q2")
     = lower ascii_lower_only (strip_digits ascii_isdigit (py "Q2"))
  /\ (forallb (fun c => negb (isdigit ascii_isdigit c)) (py "Q2") = true ->
      _arpabet_symbol_to_ipa ascii_isdigit ascii_lower_only (py "Q2")
      = lower ascii_lower_only (py "Q2")).
Proof.
  assert (H : ARPABET_TO_IPA !! strip_digits ascii_isdigit (py "Q2") = None)
    by (vm_compute; reflexivity).
  split; [exact H|].
  exact (unknown_symbol_passthrough ascii_isdigit ascii_lower_only (py "Q2") H).
Defined.

Lemma cat_dictionary_answers (words : list str) :
  answers ascii_lower_only cat_dictionary words.
Proof. intros w _. eexists. reflexivity. Qed.

Lemma fallback_per_word_Cat_nap :
  answers ascii_lower_only cat_dictionary [py "Cat"; py "Nap"]
  /\ returns (words_to_ipa_with_pronouncing ascii_isdigit ascii_lower_only
                (Some cat_dictionary) [py "Cat"; py "Nap"] true)
             (py "k æ t Nap").
Proof.
  split; [apply cat_dictionary_answers|].
  destruct (fallback_per_word ascii_isdigit ascii_lower_only (Some cat_dictionary)
              cat_dictionary [py "Cat"; py "Nap"] true eq_refl
              (cat_dictionary_answers _)) as [out_words [R F]].
  inversion F as [|w1 o1 ws1 os1 [_ H1] F1]; subst.
  inversion F1 as [|w2 o2 ws2 os2 [H2 _] F2]; subst.
  inversion F2; subst.
  destruct (H1 (py "K AE1 T") [] eq_refl) as [E1 _].
  rewrite (H2 eq_refl), E1 in R. exact R.
Defined.

Lemma fallback_raises_iff_unavailable_cat :
  (forall d, Some cat_dictionary = Some d -> answers ascii_lower_only d [py "Cat"])
  /\ (raises (words_to_ipa_with_pronouncing ascii_isdigit ascii_lower_only
                (Some cat_dictionary) [py "Cat"] false)
      <-> Some cat_dictionary = None)
  /\ (raises (words_to_ipa_with_pronouncing ascii_isdigit ascii_lower_only
                (Some cat_dictionary) [py "Cat"] false) ->
      forall out, ~ returns (words_to_ipa_with_pronouncing ascii_isdigit ascii_lower_only
                               (Some cat_dictionary) [py "Cat"] false) out)
  /\ (Some cat_dictionary = None ->
      trace (words_to_ipa_with_pronouncing ascii_isdigit ascii_lower_only
               (Some cat_dictionary) [py "Cat"] false) = []).
Proof.
  assert (H : forall d, Some cat_dictionary = Some d -> answers ascii_lower_only d [py "Cat"]).
  { intros d Hd. injection Hd as <-. apply cat_dictionary_answers. }
  split; [exact H|].
  exact (fallback_raises_iff_unavailable ascii_isdigit ascii_lower_only
           (Some cat_dictionary) [py "Cat"] false H).
Defined.

Lemma blank_phrase_empty_spaces :
  blank (py "  ") = true
  /\ text_to_ipa ascii_isdigit ascii_lower_only (Some padded_converter)
       (Some cat_dictionary) (py "  ") (py "-") true
     = ([], Ok []).
Proof.
  split; [reflexivity|].
  apply (blank_phrase_empty ascii_isdigit ascii_lower_only). reflexivity.
Defined.

Lemma primary_wins_padded :
  strip (py " cat ") <> []
  /\ padded_converter (strip (py " cat ")) = Ok (py " kæt ")
  /\ strip (py " kæt ") <> []
  /\ text_to_ipa ascii_isdigit ascii_lower_only (Some padded_converter)
       (Some cat_dictionary) (py " cat ") (py "-") false
     = ([CallConvert (py "cat")], Ok (py "kæt")).
Proof.
  assert (H1 : strip (py " cat ") <> []) by (vm_compute; discriminate).
  assert (H3 : strip (py " kæt ") <> []) by (vm_compute; discriminate).
  split; [exact H1|]. split; [reflexivity|]. split; [exact H3|].
  exact (proj1 (primary_wins ascii_isdigit ascii_lower_only (Some padded_converter)
                  (Some cat_dictionary) padded_converter (py " cat ") (py "-") false
                  (py " kæt ") eq_refl H1 eq_refl H3)).
Defined.

Lemma cat_scenario_cat_dictionary :
  cat_dictionary (py "cat") = Ok [py "K AE1 T"]
  /\ returns (text_to_ipa ascii_isdigit ascii_lower_only None (Some cat_dictionary)
                (py "cat") (py " ") false)
             (py "k æ t").
Proof.
  split; [reflexivity|].
  exact (cat_scenario ascii_isdigit ascii_lower_only None (Some cat_dictionary)
           cat_dictionary false eq_refl eq_refl eq_refl).
Defined.

(** ** The primary converter and the fallback *)

(** A primary converter that fails on the phrase, by raising or by
    returning a blank string, is as good as none: the converter returns or
    raises what it does without primary converter, and apart from the
    diagnostics its trace is the call to the primary converter followed by
    the trace of the run without one. *)
Theorem primary_failure_absorbed
    (uni_isdigit : char -> bool) (uni_lower : str -> str)
    (convert : str -> result str) (pronouncing : option (str -> result (list str)))
    (text sep : str) (debug : bool) :
  blank text = false ->
  (exists e, convert (strip text) = Raise e)
  \/ (exists res, convert (strip text) = Ok res /\ blank res = true) ->
  outcome (text_to_ipa uni_isdigit uni_lower (Some convert) pronouncing text sep debug)
  = outcome (text_to_ipa uni_isdigit uni_lower None pronouncing text sep debug)
  /\ quiet (trace (text_to_ipa uni_isdigit uni_lower (Some convert) pronouncing text sep debug))
     = CallConvert (strip text)
       :: quiet (trace (text_to_ipa uni_isdigit uni_lower None pronouncing text sep debug)).
Proof.
  intros Hb H.
  assert (P : exists t0, try_eng_to_ipa (Some convert) (strip text) debug = (t0, Ok None)
                         /\ quiet t0 = [CallConvert (strip text)]).
  { unfold try_eng_to_ipa, call. destruct H as [[e He]|[res [Hr Hbl]]].
    - rewrite He. destruct debug; eexists; split; reflexivity.
    - rewrite Hr. cbn. rewrite truthy_strip_blank, Hbl, andb_false_r.
      eexists; split; reflexivity. }
  destruct P as [t0 [E Q]].
  unfold text_to_ipa. rewrite truthy_strip_blank, Hb. cbn [negb]. rewrite E.
  change (try_eng_to_ipa None (strip text) debug) with (@ret (option str) None).
  rewrite bind_ret_l. split.
  - rewrite outcome_bind_ok. reflexivity.
  - rewrite trace_bind_ok, quiet_app, Q. reflexivity.
Qed.

(** ** Instances of the further theorems *)

Lemma table_symbol_translates_CH :
  ARPABET_TO_IPA !! py "CH" = Some (py "t͡ʃ")
  /\ In 48 stress_digits
  /\ forallb (fun c => negb (isdigit ascii_isdigit c)) (py "CH") = true
  /\ _arpabet_symbol_to_ipa ascii_isdigit ascii_lower_only (py "CH") = py "t͡ʃ"
  /\ _arpabet_symbol_to_ipa ascii_isdigit ascii_lower_only (py "CH" ++ [48]) = py "t͡ʃ"
  /\ token (py "t͡ʃ") = true.
Proof.
  assert (H1 : ARPABET_TO_IPA !! py "CH" = Some (py "t͡ʃ")) by (vm_compute; reflexivity).
  assert (H2 : In 48 stress_digits) by (left; reflexivity).
  split; [exact H1|]. split; [exact H2|].
  exact (table_symbol_translates ascii_isdigit ascii_lower_only _ _ _ H1 H2).
Defined.

Lemma known_symbols_one_token_each_cat :
  Forall (fun sym => is_Some (ARPABET_TO_IPA !! strip_digits ascii_isdigit sym))
    [py "K"; py "AE1"; py "T"]
  /\ split (arpabet_list_to_ipa ascii_isdigit ascii_lower_only [py "K"; py "AE1"; py "T"])
     = List.map (_arpabet_symbol_to_ipa ascii_isdigit ascii_lower_only)
         [py "K"; py "AE1"; py "T"].
Proof.
  assert (H : Forall (fun sym => is_Some (ARPABET_TO_IPA !! strip_digits ascii_isdigit sym))
                [py "K"; py "AE1"; py "T"]).
  { constructor; [eexists; vm_compute; reflexivity|].
    constructor; [eexists; vm_compute; reflexivity|].
    constructor; [eexists; vm_compute; reflexivity|]. constructor. }
  split; [exact H|].
  exact (known_symbols_one_token_each ascii_isdigit ascii_lower_only _ H).
Defined.

Lemma fallback_queries_Cat_Nap :
  answers ascii_lower_only cat_dictionary [py "Cat"; py "Nap"]
  /\ quiet (trace (words_to_ipa_with_pronouncing ascii_isdigit ascii_lower_only
                     (Some cat_dictionary) [py "Cat"; py "Nap"] true))
     = [CallPhones (py "cat"); CallPhones (py "nap")].
Proof.
  split; [apply cat_dictionary_answers|].
  exact (fallback_queries ascii_isdigit ascii_lower_only (Some cat_dictionary)
           cat_dictionary [py "Cat"; py "Nap"] true eq_refl (cat_dictionary_answers _)).
Defined.

Lemma converter_ignores_surrounding_whitespace_cat :
  blank (py "  ") = true /\ blank (py " ") = true
  /\ text_to_ipa ascii_isdigit ascii_lower_only None (Some cat_dictionary)
       (py "  " ++ py "cat" ++ py " ") (py "-") false
     = text_to_ipa ascii_isdigit ascii_lower_only None (Some cat_dictionary)
         (py "cat") (py "-") false
  /\ text_to_ipa ascii_isdigit ascii_lower_only None (Some cat_dictionary)
       (strip (py "cat")) (py "-") false
     = text_to_ipa ascii_isdigit ascii_lower_only None (Some cat_dictionary)
         (py "cat") (py "-") false.
Proof.
  split; [reflexivity|]. split; [reflexivity|].
  exact (converter_ignores_surrounding_whitespace ascii_isdigit ascii_lower_only None
           (Some cat_dictionary) (py "  ") (py "cat") (py " ") (py "-") false
           eq_refl eq_refl).
Defined.

Lemma cat_dictionary_total (w : str) : exists phones, cat_dictionary w = Ok phones.
Proof. eexists. reflexivity. Qed.

Lemma converter_returns_with_dictionary_cat :
  (forall w, exists phones, cat_dictionary w = Ok phones)
  /\ exists out,
      returns (text_to_ipa ascii_isdigit ascii_lower_only (Some blank_converter)
                 (Some cat_dictionary) (py "cat nap") (py " ") true) out.
Proof.
  split; [exact cat_dictionary_total|].
  exact (converter_returns_with_dictionary ascii_isdigit ascii_lower_only
           (Some blank_converter) (Some cat_dictionary) cat_dictionary
           (py "cat nap") (py " ") true eq_refl cat_dictionary_total).
Defined.

Lemma missing_file_instance :
  phrases_file (py "missing.txt") = Raise (FileNotFoundError (py "missing.txt"))
  /\ main ascii_isdigit ascii_lower_only None (Some cat_dictionary) phrases_file stdout_ok
       (file_args (py "missing.txt") (py " "))
     = ([OpenFile (Some (py "missing.txt"));
         Stderr (ErrFileNotFound (Some (py "missing.txt")))], 1).
Proof.
  assert (H : phrases_file (py "missing.txt")
              = Raise (FileNotFoundError (py "missing.txt"))) by (vm_compute; reflexivity).
  split; [exact H|].
  apply (missing_file ascii_isdigit ascii_lower_only None (Some cat_dictionary)
           phrases_file stdout_ok (file_args (py "missing.txt") (py " "))
           (py "missing.txt") (py "missing.txt"));
    [reflexivity | reflexivity | discriminate | exact H].
Defined.

Lemma file_without_phrases_instance :
  Forall (fun line => blank line = true) [py "   "; []]
  /\ main ascii_isdigit ascii_lower_only None (Some cat_dictionary) blank_files stdout_ok
       (file_args (py "blank.txt") (py " "))
     = ([OpenFile (Some (py "blank.txt")); Stderr WarnNoLines], 0).
Proof.
  assert (H : Forall (fun line => blank line = true) [py "   "; []])
    by (constructor; [reflexivity|]; constructor; [reflexivity|]; constructor).
  split; [exact H|].
  apply (file_without_phrases ascii_isdigit ascii_lower_only None (Some cat_dictionary)
           blank_files stdout_ok (file_args (py "blank.txt") (py " ")) (py "blank.txt")
           [py "   "; []]); [reflexivity | reflexivity | discriminate | reflexivity | exact H].
Defined.

Lemma file_mode_one_line_per_phrase_instance :
  phrases_file (py "phrases.txt") = Ok ([py "cat"; py "  "; py " Cat nap "], None)
  /\ (forall s, stdout_ok s = Ok tt)
  /\ snd (main ascii_isdigit ascii_lower_only None (Some cat_dictionary) phrases_file
            stdout_ok (file_args (py "phrases.txt") (py " "))) = 0
  /\ Forall2 (fun line out =>
       returns (text_to_ipa ascii_isdigit ascii_lower_only None (Some cat_dictionary)
                  line (py " ") false) out)
       (List.filter (fun l => negb (blank l)) [py "cat"; py "  "; py " Cat nap "])
       (printed
          (fst (main ascii_isdigit ascii_lower_only None (Some cat_dictionary) phrases_file
                  stdout_ok (file_args (py "phrases.txt") (py " "))))).
Proof.
  assert (H : phrases_file (py "phrases.txt")
              = Ok ([py "cat"; py "  "; py " Cat nap "], None)) by (vm_compute; reflexivity).
  split; [exact H|]. split; [reflexivity|].
  apply (file_mode_one_line_per_phrase ascii_isdigit ascii_lower_only None
           (Some cat_dictionary) phrases_file stdout_ok cat_dictionary
           (file_args (py "phrases.txt") (py " ")) (py "phrases.txt")
           [py "cat"; py "  "; py " Cat nap "]);
    [reflexivity | exact cat_dictionary_total | reflexivity | reflexivity | reflexivity
    | discriminate | exact H].
Defined.

Lemma text_mode_instance :
  falsy (args_text (text_args (py "cat") (py " "))) = false
  /\ main ascii_isdigit ascii_lower_only None (Some cat_dictionary) phrases_file stdout_ok
       (text_args (py "cat") (py " "))
     = ([CallPhones (py "cat"); Stdout (py "k æ t")], 0)
  /\ falsy (args_text (text_args [99; 56575] (py " "))) = false
  /\ stdout_strict [99; 56575]
     = Raise (OtherException
                (py "'utf-8' codec can't encode character: surrogates not allowed"))
  /\ main ascii_isdigit ascii_lower_only None (Some cat_dictionary) phrases_file
       stdout_strict (text_args [99; 56575] (py " "))
     = ([CallPhones [99; 56575];
         Stderr (ErrException (OtherException
           (py "'utf-8' codec can't encode character: surrogates not allowed")))], 1).
Proof.
  split; [reflexivity|]. split.
  - exact (proj2 (text_mode ascii_isdigit ascii_lower_only None (Some cat_dictionary)
                    phrases_file stdout_ok (text_args (py "cat") (py " ")) eq_refl)).
  - split; [reflexivity|]. split; [reflexivity|].
    exact (proj2 (text_mode ascii_isdigit ascii_lower_only None (Some cat_dictionary)
                    phrases_file stdout_strict (text_args [99; 56575] (py " ")) eq_refl)).
Defined.

Lemma no_converter_at_all_instance :
  blank (py "cat") = false
  /\ main ascii_isdigit ascii_lower_only None None phrases_file stdout_ok
       (text_args (py "cat") (py " "))
     = ([Stderr (ErrException (RuntimeError
           (py "Module 'pronouncing' not available and eng_to_ipa failed.")))], 1).
Proof.
  split; [reflexivity|].
  exact (no_converter_at_all ascii_isdigit ascii_lower_only None None phrases_file
           stdout_ok (text_args (py "cat") (py " ")) (py "cat")
           eq_refl eq_refl eq_refl eq_refl).
Defined.

Lemma primary_failure_absorbed_blank :
  blank (py "cat") = false
  /\ (exists res, blank_converter (strip (py "cat")) = Ok res /\ blank res = true)
  /\ outcome (text_to_ipa ascii_isdigit ascii_lower_only (Some blank_converter)
                (Some cat_dictionary) (py "cat") (py " ") true)
     = outcome (text_to_ipa ascii_isdigit ascii_lower_only None
                  (Some cat_dictionary) (py "cat") (py " ") true).
Proof.
  assert (H : exists res, blank_converter (strip (py "cat")) = Ok res /\ blank res = true)
    by (eexists; split; reflexivity).
  split; [reflexivity|]. split; [exact H|].
  exact (proj1 (primary_failure_absorbed ascii_isdigit ascii_lower_only blank_converter
                  (Some cat_dictionary) (py "cat") (py " ") true eq_refl
                  (or_intror H))).
Defined.
